(** * backend/test_scripts/queries.py: the two query functions

    [query_graph] posts one fixed GraphQL document to a subgraph gateway
    and returns the ["data"] member of the decoded answer; [query_binance]
    gets one fixed URL and returns the decoded answer.

    The functions are embedded over an explicit model of what they touch:
    the HTTP client ([requests.post], [requests.get], the response's
    [status_code] and [json()]) and standard output.  The HTTP layer is
    a variable of the development, so every statement holds for every
    mocked layer.  Every call the functions make on the outside world is
    recorded, in order, in a trace. *)

From Stdlib Require Import ZArith String Ascii List Bool.
From Stdlib Require Import Floats.SpecFloat.
From stdpp Require Import base option list gmap strings pretty.
Import ListNotations.

Local Open Scope string_scope.
Local Open Scope Z_scope.
Local Open Scope list_scope.

(** ** Decoded JSON (Python objects returned by [json()])

    [None], [bool], [int], [float], [str], [list] and [dict] with [str]
    keys.  A [float] is kept as the IEEE value it denotes. *)

#[warnings="-register-all"]
Inductive value : Type :=
| JNull
| JBool (b : bool)
| JInt (z : Z)
| JFloat (f : spec_float)
| JStr (s : string)
| JList (l : list value)
| JDict (d : gmap string value).

(** The name Python gives to the type of a decoded value. *)
Definition type_name (v : value) : string :=
  match v with
  | JNull => "NoneType"
  | JBool _ => "bool"
  | JInt _ => "int"
  | JFloat _ => "float"
  | JStr _ => "str"
  | JList _ => "list"
  | JDict _ => "dict"
  end.

(** ** Exceptions and results *)

Inductive exn : Type :=
| RequestException (what : string)   (* raised by the HTTP client itself *)
| JSONDecodeError                    (* [json()] on a body that is not JSON *)
| KeyError (key : string)            (* [d[key]] on a dict without [key] *)
| TypeError (ty : string).           (* [v[key]] on a [v] of type [ty], not a dict *)

Inductive result (A : Type) : Type :=
| Return (a : A)
| Raise (e : exn).
Arguments Return {A} a.
Arguments Raise {A} e.

(** ** The HTTP client *)

Inductive method : Type := GET | POST.

(** One call of [requests.get(url)] or
    [requests.post(url, headers=..., json=...)]. *)
Record Request : Type := {
  req_method : method;
  req_url : string;
  req_headers : gmap string string;
  req_json : option value
}.

(** What the function reads of a response: [status_code], and the outcome
    of [json()], [None] when the body is not valid JSON. *)
Record Response : Type := {
  status_code : Z;
  json_body : option value
}.

(** ** The trace of calls on the outside world *)

Inductive event : Type :=
| EvRequest (rq : Request)     (* one HTTP request handed to the client *)
| EvPrint (text : string)      (* text written to standard output *)
| EvJson.                      (* one call of [json()] on the response *)

Definition trace : Type := list event.

Definition requests_of (t : trace) : list Request :=
  omap (fun e => match e with EvRequest rq => Some rq | _ => None end) t.

(** What was written to standard output, write by write. *)
Definition stdout_of (t : trace) : list string :=
  omap (fun e => match e with EvPrint s => Some s | _ => None end) t.

(** ** The monad of the functions: a trace threaded through, and exceptions *)

Definition M (A : Type) : Type := trace -> result A * trace.

Definition ret {A} (a : A) : M A := fun t => (Return a, t).

Definition raise {A} (e : exn) : M A := fun t => (Raise e, t).

Definition bind {A B} (m : M A) (k : A -> M B) : M B :=
  fun t =>
    match m t with
    | (Return a, t') => k a t'
    | (Raise e, t') => (Raise e, t')
    end.

Notation "x <- m ;; k" := (bind m (fun x => k))
  (at level 100, m at next level, right associativity).
Notation "m ;;; k" := (bind m (fun _ => k))
  (at level 100, right associativity).

Definition emit (e : event) : M unit := fun t => (Return tt, t ++ [e]).

Definition lift {A} (r : result A) : M A := fun t => (r, t).

(** ** Python primitives used by the functions *)

Definition LF : string := String "010"%char EmptyString.

(** [str(n)] for an [int]. *)
Definition str (n : Z) : string := pretty n.

(** [print(x)]: [str(x)] and a newline on standard output. *)
Definition print (n : Z) : M unit := emit (EvPrint (str n +:+ LF)).

(** [v[key]] for a [str] key: only a dict can be indexed by a string. *)
Definition getitem (v : value) (key : string) : result value :=
  match v with
  | JDict d =>
      match d !! key with
      | Some x => Return x
      | None => Raise (KeyError key)
      end
  | _ => Raise (TypeError (type_name v))
  end.

(** [r.json()]. *)
Definition json (r : Response) : M value :=
  emit EvJson ;;;
  match json_body r with
  | Some v => ret v
  | None => raise JSONDecodeError
  end.

(** ** The literals of the two functions *)

Definition dq : string := String "034"%char EmptyString.

(** A double-quoted piece of the document. *)
Definition quoted (s : string) : string := dq +:+ s +:+ dq.

Module QueryGraph.

(** The lines of the triple-quoted literal [q]; the literal opens with
    a newline and closes right after the last brace. *)
Definition q_lines : list string :=
  [ "";
    "  {";
    "    swaps(where:{pool_in:[" +:+ quoted "0x88e6a0c2ddd26feeb64f039a2c41296fcb3f5640" +:+ ",";
    "                          " +:+ quoted "0x8ad599c3a0ff1de082011efddc58f1908eb6e6d8" +:+ ",";
    "                          " +:+ quoted "0xe0554a476a092703abdb3ef35c80e0d76d32939f";
    "                          " +:+ quoted "0x7BeA39867e4169DBe237d55C8242a8f2fcDcc387" +:+ "]";
    "                 timestamp_gt:1733080500 timestamp_lt:1733080560 }";
    "          orderBy:timestamp orderDirection:desc )";
    "    {";
    "      amount0";
    "      amount1";
    "    }";
    "  }" ].

Definition q : string := String.concat LF q_lines.

Definition url : string :=
  "https://gateway.thegraph.com/api/da162f6f59fe4400bb44cfb2f36d1336/subgraphs/id/5zvR82QoaXYFyDEKLZ9t6v9adgnptxYpKpSbxtgVENFV".

Definition header : gmap string string :=
  {[ "Content-Type" := "application/json" ]}.

(** [requests.post( url, headers=header, json={"query":q})] *)
Definition request : Request :=
  {| req_method := POST;
     req_url := url;
     req_headers := header;
     req_json := Some (JDict {[ "query" := JStr q ]}) |}.

End QueryGraph.

Module QueryBinance.

Definition url : string :=
  "https://api.binance.com/api/v3/aggTrades?symbol=ETHUSDC&startTime=1733240400000&endTime=1733240460000".

(** [requests.get( url )] *)
Definition request : Request :=
  {| req_method := GET;
     req_url := url;
     req_headers := ∅;
     req_json := None |}.

End QueryBinance.

(** ** The two functions *)

Section Queries.

(** The HTTP layer: for the calls made so far and a request, either a
    response or the exception the client raises. *)
Variable http : trace -> Request -> result Response.

(** One request: it is recorded, then answered by the layer. *)
Definition send (rq : Request) : M Response :=
  fun t => (http t rq, t ++ [EvRequest rq]).

Definition requests_post (url : string) (headers : gmap string string)
    (payload : value) : M Response :=
  send {| req_method := POST; req_url := url;
          req_headers := headers; req_json := Some payload |}.

Definition requests_get (url : string) : M Response :=
  send {| req_method := GET; req_url := url;
          req_headers := ∅; req_json := None |}.

Definition query_graph : M value :=
  let q := QueryGraph.q in
  let url := QueryGraph.url in
  let header := QueryGraph.header in
  r <- requests_post url header (JDict {[ "query" := JStr q ]}) ;;
  print (status_code r) ;;;
  d <- json r ;;
  lift (getitem d "data").

Definition query_binance : M value :=
  let url := QueryBinance.url in
  r <- requests_get url ;;
  print (status_code r) ;;;
  json r.

End Queries.

(** ** Reading strings *)

Definition code (c : ascii) : N := N_of_ascii c.

(** The longest prefix of characters satisfying [p], and the rest. *)
Fixpoint span (p : ascii -> bool) (s : string) : string * string :=
  match s with
  | String c s' =>
      if p c then let (a, b) := span p s' in (String c a, b) else (EmptyString, s)
  | EmptyString => (EmptyString, EmptyString)
  end.

(** [needle in hay] *)
Fixpoint contains (needle hay : string) : bool :=
  String.prefix needle hay ||
  match hay with
  | String _ hay' => contains needle hay'
  | EmptyString => false
  end.

(** ** GraphQL documents

    The document [q] is only a string for [query_graph]; what it asks for
    is fixed by the GraphQL grammar, which the gateway applies to it.  This
    module is that grammar for the executable part of the language used
    by queries of this shape: the lexical grammar (ignored characters,
    comments, punctuators, names, integers, quoted strings) and operations made of
    fields with arguments, input values and nested selection sets.
    Whatever is outside this part (floats, block strings, escapes,
    fragments, directives, variable definitions) is refused with [None]. *)

Module GraphQL.

Inductive punct : Type :=
| Bang | Dollar | Amp | LParen | RParen | Spread | Colon | Equals | At
| LBracket | RBracket | LBrace | Pipe | RBrace.

Inductive token : Type :=
| TPunct (p : punct)
| TName (n : string)
| TInt (z : Z)
| TString (s : string).

Definition between (lo hi : N) (c : ascii) : bool :=
  (lo <=? code c)%N && (code c <=? hi)%N.

Definition is_digit (c : ascii) : bool := between 48 57 c.

Definition is_letter (c : ascii) : bool := between 65 90 c || between 97 122 c.

Definition is_name_start (c : ascii) : bool := is_letter c || (code c =? 95)%N.

Definition is_name_continue (c : ascii) : bool := is_name_start c || is_digit c.

Definition is_line_terminator (c : ascii) : bool :=
  (code c =? 10)%N || (code c =? 13)%N.

(** Ignored between tokens: tab, space, line terminators and commas
    (a comma separates nothing that white space does not). *)
Definition is_ignored (c : ascii) : bool :=
  (code c =? 9)%N || (code c =? 32)%N || is_line_terminator c || (code c =? 44)%N.

Definition punct_of (c : ascii) : option punct :=
  match code c with
  | 33 => Some Bang
  | 36 => Some Dollar
  | 38 => Some Amp
  | 40 => Some LParen
  | 41 => Some RParen
  | 58 => Some Colon
  | 61 => Some Equals
  | 64 => Some At
  | 91 => Some LBracket
  | 93 => Some RBracket
  | 123 => Some LBrace
  | 124 => Some Pipe
  | 125 => Some RBrace
  | _ => None
  end%N.

Fixpoint digits_value (acc : Z) (s : string) : Z :=
  match s with
  | String c s' => digits_value (10 * acc + (Z.of_N (code c) - 48)) s'
  | EmptyString => acc
  end.

(** An integer: an optional sign, then [0] or a digit sequence without a
    leading zero, not followed by a digit, a dot or a name start. *)
Definition lex_int (s : string) : option (Z * string) :=
  let (neg, s1) :=
    match s with
    | String c r => if (code c =? 45)%N then (true, r) else (false, s)
    | EmptyString => (false, s)
    end in
  let (ds, rest) := span is_digit s1 in
  match ds with
  | EmptyString => None
  | String d0 ds' =>
      let leading_zero :=
        (code d0 =? 48)%N && negb (String.eqb ds' EmptyString) in
      let bad_follow :=
        match rest with
        | String c _ => (code c =? 46)%N || is_name_start c
        | EmptyString => false
        end in
      if leading_zero || bad_follow then None
      else Some (if neg then - digits_value 0 ds else digits_value 0 ds, rest)
  end.

(** A quoted string, after its opening quote: plain characters up to the
    closing quote, on one line. *)
Definition lex_string (s : string) : option (string * string) :=
  let plain c :=
    negb ((code c =? 34)%N || (code c =? 92)%N || is_line_terminator c) in
  let (body, rest) := span plain s in
  match rest with
  | String c rest' =>
      if (code c =? 34)%N then
        match body, rest' with
        | EmptyString, String c' _ =>
            if (code c' =? 34)%N then None else Some (body, rest')
        | _, _ => Some (body, rest')
        end
      else None
  | EmptyString => None
  end.

Fixpoint lex (fuel : nat) (s : string) : option (list token) :=
  match fuel with
  | O => None
  | S fuel =>
      match s with
      | EmptyString => Some []
      | String c rest =>
          if is_ignored c then lex fuel rest
          else if (code c =? 35)%N then
            lex fuel (snd (span (fun c => negb (is_line_terminator c)) rest))
          else if (code c =? 46)%N then
            match rest with
            | String c1 (String c2 rest') =>
                if (code c1 =? 46)%N && (code c2 =? 46)%N
                then cons (TPunct Spread) <$> lex fuel rest'
                else None
            | _ => None
            end
          else if (code c =? 34)%N then
            '(body, rest') ← lex_string rest;
            cons (TString body) <$> lex fuel rest'
          else if is_name_start c then
            let (n, rest') := span is_name_continue s in
            cons (TName n) <$> lex fuel rest'
          else if (code c =? 45)%N || is_digit c then
            '(z, rest') ← lex_int s;
            cons (TInt z) <$> lex fuel rest'
          else
            p ← punct_of c;
            cons (TPunct p) <$> lex fuel rest
      end
  end.

Definition tokens (s : string) : option (list token) :=
  lex (S (String.length s)) s.

(** Input values. *)
#[warnings="-register-all"]
Inductive gvalue : Type :=
| GVar (n : string)
| GInt (z : Z)
| GString (s : string)
| GBool (b : bool)
| GNull
| GEnum (n : string)
| GList (l : list gvalue)
| GObject (fs : list (string * gvalue)).

#[warnings="-register-all"]
Inductive selection : Type :=
| Field (alias : option string) (name : string)
    (args : list (string * gvalue)) (sels : list selection).

Inductive operation_type : Type := Query | Mutation | Subscription.

Record operation : Type := {
  op_type : operation_type;
  op_name : option string;
  op_selections : list selection
}.

Definition name_value (n : string) : gvalue :=
  if String.eqb n "true" then GBool true
  else if String.eqb n "false" then GBool false
  else if String.eqb n "null" then GNull
  else GEnum n.

Definition nonempty {A} (l : list A) : option (list A) :=
  match l with
  | [] => None
  | _ :: _ => Some l
  end.

(** [parse_list_items] reads after an opening bracket, and
    [parse_object_fields] after an opening brace, up to the closing one. *)
Fixpoint parse_value (fuel : nat) (ts : list token) : option (gvalue * list token) :=
  match fuel with
  | O => None
  | S fuel =>
      match ts with
      | TPunct Dollar :: TName n :: ts' => Some (GVar n, ts')
      | TInt z :: ts' => Some (GInt z, ts')
      | TString s :: ts' => Some (GString s, ts')
      | TName n :: ts' => Some (name_value n, ts')
      | TPunct LBracket :: ts' =>
          '(l, ts'') ← parse_list_items fuel ts';
          Some (GList l, ts'')
      | TPunct LBrace :: ts' =>
          '(fs, ts'') ← parse_object_fields fuel ts';
          Some (GObject fs, ts'')
      | _ => None
      end
  end
with parse_list_items (fuel : nat) (ts : list token) : option (list gvalue * list token) :=
  match fuel with
  | O => None
  | S fuel =>
      match ts with
      | TPunct RBracket :: ts' => Some ([], ts')
      | _ =>
          '(v, ts1) ← parse_value fuel ts;
          '(l, ts2) ← parse_list_items fuel ts1;
          Some (v :: l, ts2)
      end
  end
with parse_object_fields (fuel : nat) (ts : list token)
    : option (list (string * gvalue) * list token) :=
  match fuel with
  | O => None
  | S fuel =>
      match ts with
      | TPunct RBrace :: ts' => Some ([], ts')
      | TName n :: TPunct Colon :: ts1 =>
          '(v, ts2) ← parse_value fuel ts1;
          '(fs, ts3) ← parse_object_fields fuel ts2;
          Some ((n, v) :: fs, ts3)
      | _ => None
      end
  end.

(** The arguments of a field, after the opening parenthesis. *)
Fixpoint parse_arguments (fuel : nat) (ts : list token)
    : option (list (string * gvalue) * list token) :=
  match fuel with
  | O => None
  | S fuel =>
      match ts with
      | TPunct RParen :: ts' => Some ([], ts')
      | TName n :: TPunct Colon :: ts1 =>
          '(v, ts2) ← parse_value fuel ts1;
          '(args, ts3) ← parse_arguments fuel ts2;
          Some ((n, v) :: args, ts3)
      | _ => None
      end
  end.

(** The fields of a selection set, after the opening brace. *)
Fixpoint parse_selections (fuel : nat) (ts : list token)
    : option (list selection * list token) :=
  match fuel with
  | O => None
  | S fuel =>
      match ts with
      | TPunct RBrace :: ts' => Some ([], ts')
      | TName n :: ts1 =>
          let '(alias, name, ts2) :=
            match ts1 with
            | TPunct Colon :: TName n' :: ts2 => (Some n, n', ts2)
            | _ => (None, n, ts1)
            end in
          '(args, ts3) ←
            match ts2 with
            | TPunct LParen :: ts' =>
                '(args, ts3) ← parse_arguments fuel ts';
                args ← nonempty args;
                Some (args, ts3)
            | _ => Some ([], ts2)
            end;
          '(sub, ts4) ←
            match ts3 with
            | TPunct LBrace :: ts' =>
                '(sub, ts4) ← parse_selections fuel ts';
                sub ← nonempty sub;
                Some (sub, ts4)
            | _ => Some ([], ts3)
            end;
          '(more, ts5) ← parse_selections fuel ts4;
          Some (Field alias name args sub :: more, ts5)
      | _ => None
      end
  end.

Definition operation_keyword (n : string) : option operation_type :=
  if String.eqb n "query" then Some Query
  else if String.eqb n "mutation" then Some Mutation
  else if String.eqb n "subscription" then Some Subscription
  else None.

(** The operations of a document: a bare selection set is a query. *)
Fixpoint parse_operations (fuel : nat) (ts : list token) : option (list operation) :=
  match fuel with
  | O => None
  | S fuel =>
      match ts with
      | [] => Some []
      | TPunct LBrace :: ts1 =>
          '(sels, ts2) ← parse_selections fuel ts1;
          sels ← nonempty sels;
          cons {| op_type := Query; op_name := None; op_selections := sels |}
            <$> parse_operations fuel ts2
      | TName kw :: ts1 =>
          ty ← operation_keyword kw;
          let (name, ts2) :=
            match ts1 with
            | TName n :: ts2 => (Some n, ts2)
            | _ => (None, ts1)
            end in
          match ts2 with
          | TPunct LBrace :: ts3 =>
              '(sels, ts4) ← parse_selections fuel ts3;
              sels ← nonempty sels;
              cons {| op_type := ty; op_name := name; op_selections := sels |}
                <$> parse_operations fuel ts4
          | _ => None
          end
      | _ => None
      end
  end.

Definition parse_document (s : string) : option (list operation) :=
  ts ← tokens s;
  ops ← parse_operations (S (2 * length ts)) ts;
  nonempty ops.

(** The value given for the argument named [n]. *)
Fixpoint argument (n : string) (args : list (string * gvalue)) : option gvalue :=
  match args with
  | [] => None
  | (n', v) :: args' => if String.eqb n' n then Some v else argument n args'
  end.

(** The string and integer literals of a value, of a field with its
    sub-fields, and of a whole document, in the order they are written. *)
Fixpoint value_strings (v : gvalue) : list string :=
  match v with
  | GString s => [s]
  | GList l => flat_map value_strings l
  | GObject fs => flat_map (fun p => value_strings (snd p)) fs
  | _ => []
  end.

Fixpoint value_ints (v : gvalue) : list Z :=
  match v with
  | GInt z => [z]
  | GList l => flat_map value_ints l
  | GObject fs => flat_map (fun p => value_ints (snd p)) fs
  | _ => []
  end.

Fixpoint selection_strings (f : selection) : list string :=
  match f with
  | Field _ _ args sels =>
      flat_map (fun p => value_strings (snd p)) args ++ flat_map selection_strings sels
  end.

Fixpoint selection_ints (f : selection) : list Z :=
  match f with
  | Field _ _ args sels =>
      flat_map (fun p => value_ints (snd p)) args ++ flat_map selection_ints sels
  end.

Definition document_strings (ops : list operation) : list string :=
  flat_map (fun o => flat_map selection_strings (op_selections o)) ops.

Definition document_ints (ops : list operation) : list Z :=
  flat_map (fun o => flat_map selection_ints (op_selections o)) ops.

End GraphQL.

(** ** The filter convention of the subgraph API

    In a [where] object the field [attr_op] compares the attribute [attr]
    of an entity with the given value by [op]; a field without a suffix
    asks for equality.  All the fields have to hold. *)

Module Subgraph.

Import GraphQL.

Inductive filter_op : Type :=
| OpEq | OpNot | OpGt | OpLt | OpGte | OpLte | OpIn | OpNotIn.

Definition suffixes : list (string * filter_op) :=
  [ ("_not_in", OpNotIn); ("_not", OpNot); ("_gte", OpGte); ("_lte", OpLte);
    ("_gt", OpGt); ("_lt", OpLt); ("_in", OpIn) ].

Definition strip_suffix (suffix s : string) : option string :=
  let n := (String.length s - String.length suffix)%nat in
  if (String.length suffix <? String.length s)%nat
     && String.eqb (String.substring n (String.length suffix) s) suffix
  then Some (String.substring 0 n s)
  else None.

Fixpoint filter_of_aux (l : list (string * filter_op)) (field : string)
    : string * filter_op :=
  match l with
  | [] => (field, OpEq)
  | (suffix, op) :: l' =>
      match strip_suffix suffix field with
      | Some attr => (attr, op)
      | None => filter_of_aux l' field
      end
  end.

Definition filter_of (field : string) : string * filter_op :=
  filter_of_aux suffixes field.

Definition scalar_eqb (a b : gvalue) : bool :=
  match a, b with
  | GInt x, GInt y => (x =? y)%Z
  | GString x, GString y => String.eqb x y
  | GBool x, GBool y => Bool.eqb x y
  | GEnum x, GEnum y => String.eqb x y
  | _, _ => false
  end.

Definition compare_int (test : Z -> Z -> bool) (a b : gvalue) : bool :=
  match a, b with
  | GInt x, GInt y => test x y
  | _, _ => false
  end.

Definition member (a : gvalue) (b : gvalue) : bool :=
  match b with
  | GList l => existsb (scalar_eqb a) l
  | _ => false
  end.

(** [holds op a b]: the attribute value [a] passes the filter [op] with
    the value [b] given in the query. *)
Definition holds (op : filter_op) (a b : gvalue) : bool :=
  match op with
  | OpEq => scalar_eqb a b
  | OpNot => negb (scalar_eqb a b)
  | OpGt => compare_int Z.gtb a b
  | OpLt => compare_int Z.ltb a b
  | OpGte => compare_int Z.geb a b
  | OpLte => compare_int Z.leb a b
  | OpIn => member a b
  | OpNotIn => negb (member a b)
  end.

(** An entity, as its attributes. *)
Definition entity : Type := string -> option gvalue.

Definition field_holds (e : entity) (f : string * gvalue) : bool :=
  let (attr, op) := filter_of (fst f) in
  match e attr with
  | Some a => holds op a (snd f)
  | None => false
  end.

Definition where_holds (w : gvalue) (e : entity) : bool :=
  match w with
  | GObject fs => forallb (field_holds e) fs
  | _ => false
  end.

(** A swap event, by the two attributes the query filters on. *)
Definition swap (pool : string) (timestamp : Z) : entity :=
  fun attr =>
    if String.eqb attr "pool" then Some (GString pool)
    else if String.eqb attr "timestamp" then Some (GInt timestamp)
    else None.

End Subgraph.

(** ** URLs

    [scheme://authority/path?query#fragment], and a query string as its
    [name=value] pairs separated by [&]. *)

Module URL.

Record parts : Type := {
  scheme : string;
  authority : string;
  path : string;
  query : option string
}.

Definition is_not (n : N) (c : ascii) : bool := negb (code c =? n)%N.

Definition split (u : string) : option parts :=
  let (sch, r1) := span (is_not 58) u in
  match r1 with
  | String _ (String c1 (String c2 r2)) =>
      if (code c1 =? 47)%N && (code c2 =? 47)%N then
        let (auth, r3) :=
          span (fun c => is_not 47 c && is_not 63 c && is_not 35 c) r2 in
        let (pth, r4) := span (fun c => is_not 63 c && is_not 35 c) r3 in
        let qry :=
          match r4 with
          | String c r5 =>
              if (code c =? 63)%N then Some (fst (span (is_not 35) r5)) else None
          | EmptyString => None
          end in
        Some {| scheme := sch; authority := auth; path := pth; query := qry |}
      else None
  | _ => None
  end.

(** The pieces of [s] between the occurrences of the character [sep]. *)
Fixpoint pieces (sep : N) (s : string) : list string :=
  match s with
  | EmptyString => [EmptyString]
  | String c s' =>
      if (code c =? sep)%N then EmptyString :: pieces sep s'
      else
        match pieces sep s' with
        | p :: ps => String c p :: ps
        | [] => [String c EmptyString]
        end
  end.

Definition parameter (piece : string) : string * string :=
  let (name, r) := span (is_not 61) piece in
  match r with
  | String _ v => (name, v)
  | EmptyString => (name, EmptyString)
  end.

Definition parameters (qry : string) : list (string * string) :=
  parameter <$> pieces 38 qry.

End URL.

(** ** What a call comes to once the layer has answered *)

(** The outcome of the lookup [r.json()["data"]]. *)
Definition data_of (r : Response) : result value :=
  match json_body r with
  | Some v => getitem v "data"
  | None => Raise JSONDecodeError
  end.

(** The outcome of [r.json()]. *)
Definition body_of (r : Response) : result value :=
  match json_body r with
  | Some v => Return v
  | None => Raise JSONDecodeError
  end.

(** The calls made once a response with status [n] has come back. *)
Definition after_response (rq : Request) (n : Z) : trace :=
  [EvRequest rq; EvPrint (str n +:+ LF); EvJson].

(** Whether a decoded body is a mapping with the key [k]. *)
Definition has_key (k : string) (v : value) : bool :=
  match v with
  | JDict d => match d !! k with Some _ => true | None => false end
  | _ => false
  end.

(** ** Mocked HTTP layers used to run the functions *)

(** A layer that answers every request with the response [r]. *)
Definition mocked (r : Response) : trace -> Request -> result Response :=
  fun _ _ => Return r.

(** A layer on which every request fails in the client. *)
Definition unreachable : trace -> Request -> result Response :=
  fun _ _ => Raise (RequestException "ConnectionError").

(** [{"swaps": [{"amount0": "1.0", "amount1": "-2.0"}]}] *)
Definition swaps_answer : value :=
  JDict {[ "swaps" :=
    JList [JDict (<[ "amount0" := JStr "1.0" ]> {[ "amount1" := JStr "-2.0" ]})] ]}.

(** [[{"message": "bad query"}]] *)
Definition errors_answer : value :=
  JList [JDict {[ "message" := JStr "bad query" ]}].

(** [[{"p": "3000.5", "q": "0.1", "T": 1733240410000}]] *)
Definition trades_answer : value :=
  JList [JDict (<[ "p" := JStr "3000.5" ]> (<[ "q" := JStr "0.1" ]>
                  {[ "T" := JInt 1733240410000 ]}))].

Definition reply (n : Z) (v : value) : Response :=
  {| status_code := n; json_body := Some v |}.

(** A response whose body is not JSON. *)
Definition garbled (n : Z) : Response :=
  {| status_code := n; json_body := None |}.

(** The [where] object of the document. *)
Definition where_of_q : GraphQL.gvalue :=
  GraphQL.GObject
    [ ("pool_in",
       GraphQL.GList
         [ GraphQL.GString "0x88e6a0c2ddd26feeb64f039a2c41296fcb3f5640";
           GraphQL.GString "0x8ad599c3a0ff1de082011efddc58f1908eb6e6d8";
           GraphQL.GString "0xe0554a476a092703abdb3ef35c80e0d76d32939f";
           GraphQL.GString "0x7BeA39867e4169DBe237d55C8242a8f2fcDcc387" ]);
      ("timestamp_gt", GraphQL.GInt 1733080500);
      ("timestamp_lt", GraphQL.GInt 1733080560) ].

(** * Properties *)

(** ** What one call does, step by step *)

Section Runs.

Variable http : trace -> Request -> result Response.

Lemma query_graph_answered (t : trace) (r : Response) :
  http t QueryGraph.request = Return r ->
  query_graph http t =
    (data_of r, t ++ after_response QueryGraph.request (status_code r)).
Proof.
  intros Hr.
  unfold query_graph, requests_post, send, bind, print, json, emit, lift, data_of.
  fold QueryGraph.request. rewrite Hr. cbn.
  rewrite <- !app_assoc. cbn.
  destruct (json_body r) as [v|]; reflexivity.
Qed.

Lemma query_graph_unanswered (t : trace) (e : exn) :
  http t QueryGraph.request = Raise e ->
  query_graph http t = (Raise e, t ++ [EvRequest QueryGraph.request]).
Proof.
  intros He.
  unfold query_graph, requests_post, send, bind.
  fold QueryGraph.request. rewrite He. reflexivity.
Qed.

Lemma query_binance_answered (t : trace) (r : Response) :
  http t QueryBinance.request = Return r ->
  query_binance http t =
    (body_of r, t ++ after_response QueryBinance.request (status_code r)).
Proof.
  intros Hr.
  unfold query_binance, requests_get, send, bind, print, json, emit, body_of.
  fold QueryBinance.request. rewrite Hr. cbn.
  rewrite <- !app_assoc. cbn.
  destruct (json_body r) as [v|]; reflexivity.
Qed.

Lemma query_binance_unanswered (t : trace) (e : exn) :
  http t QueryBinance.request = Raise e ->
  query_binance http t = (Raise e, t ++ [EvRequest QueryBinance.request]).
Proof.
  intros He.
  unfold query_binance, requests_get, send, bind.
  fold QueryBinance.request. rewrite He. reflexivity.
Qed.

End Runs.

Lemma requests_of_app (t1 t2 : trace) :
  requests_of (t1 ++ t2) = requests_of t1 ++ requests_of t2.
Proof. unfold requests_of. apply omap_app. Qed.

Lemma stdout_of_app (t1 t2 : trace) :
  stdout_of (t1 ++ t2) = stdout_of t1 ++ stdout_of t2.
Proof. unfold stdout_of. apply omap_app. Qed.

(** ** Results of [query_graph] *)

(** C1: whenever the gateway answers with a body that decodes to a mapping
    with a ["data"] key, [query_graph] returns the value stored under that
    key, as it is. *)
Theorem query_graph_returns_data
    (http : trace -> Request -> result Response) (t : trace)
    (r : Response) (d : gmap string value) (v : value) :
  http t QueryGraph.request = Return r ->
  json_body r = Some (JDict d) ->
  d !! "data" = Some v ->
  fst (query_graph http t) = Return v.
Proof.
  intros Hr Hbody Hdata.
  rewrite (query_graph_answered http t r Hr). cbn.
  unfold data_of. rewrite Hbody. cbn. now rewrite Hdata.
Qed.

Lemma query_graph_returns_data_witness :
  fst (query_graph (mocked (reply 200 (JDict {[ "data" := swaps_answer ]}))) [])
  = Return swaps_answer.
Proof.
  apply (query_graph_returns_data
           (mocked (reply 200 (JDict {[ "data" := swaps_answer ]}))) []
           (reply 200 (JDict {[ "data" := swaps_answer ]}))
           {[ "data" := swaps_answer ]} swaps_answer).
  - reflexivity.
  - reflexivity.
  - vm_compute. reflexivity.
Defined.

(** C2: whenever the body of the answer is not valid JSON, or decodes to
    something without a ["data"] key, [query_graph] raises: the decoding
    error, [KeyError] for a mapping, [TypeError] for any other value.  No
    value is returned in its place. *)
Theorem query_graph_raises_without_data
    (http : trace -> Request -> result Response) (t : trace) (r : Response) :
  http t QueryGraph.request = Return r ->
  (json_body r = None \/
   exists v, json_body r = Some v /\ has_key "data" v = false) ->
  fst (query_graph http t) =
    Raise match json_body r with
          | None => JSONDecodeError
          | Some (JDict _) => KeyError "data"
          | Some v => TypeError (type_name v)
          end.
Proof.
  intros Hr Hbody.
  rewrite (query_graph_answered http t r Hr). cbn.
  unfold data_of.
  destruct Hbody as [Hnone | (v & Hsome & Hkey)].
  - now rewrite Hnone.
  - rewrite Hsome.
    destruct v as [ | b | z | f | s | l | d]; try reflexivity.
    cbn in *. destruct (d !! "data"); [discriminate | reflexivity].
Qed.

Lemma query_graph_raises_without_data_witness :
  fst (query_graph (mocked (reply 200 (JDict {[ "errors" := errors_answer ]}))) [])
  = Raise (KeyError "data").
Proof.
  apply (query_graph_raises_without_data
           (mocked (reply 200 (JDict {[ "errors" := errors_answer ]}))) []
           (reply 200 (JDict {[ "errors" := errors_answer ]}))).
  - reflexivity.
  - right. exists (JDict {[ "errors" := errors_answer ]}).
    split; [reflexivity | vm_compute; reflexivity].
Defined.

(** C9: whenever the body decodes to a mapping that holds ["data"] next to
    any other keys, [query_graph] returns the value of ["data"] alone and
    raises nothing; the other keys have no influence. *)
Theorem query_graph_ignores_other_keys
    (http : trace -> Request -> result Response) (t : trace)
    (r : Response) (others : gmap string value) (v : value) :
  http t QueryGraph.request = Return r ->
  json_body r = Some (JDict (<[ "data" := v ]> others)) ->
  fst (query_graph http t) = Return v.
Proof.
  intros Hr Hbody.
  rewrite (query_graph_answered http t r Hr). cbn.
  unfold data_of. rewrite Hbody. cbn.
  now rewrite lookup_insert_eq.
Qed.

Lemma query_graph_ignores_other_keys_witness :
  fst (query_graph
         (mocked (reply 200 (JDict (<[ "data" := swaps_answer ]>
                                      {[ "errors" := errors_answer ]})))) [])
  = Return swaps_answer.
Proof.
  apply (query_graph_ignores_other_keys
           (mocked (reply 200 (JDict (<[ "data" := swaps_answer ]>
                                        {[ "errors" := errors_answer ]})))) []
           (reply 200 (JDict (<[ "data" := swaps_answer ]>
                                {[ "errors" := errors_answer ]})))
           {[ "errors" := errors_answer ]} swaps_answer);
    reflexivity.
Defined.

(** ** Result of [query_binance] *)

(** C3: whenever the endpoint answers with a body that is valid JSON,
    [query_binance] returns the decoded body itself, whatever its shape. *)
Theorem query_binance_returns_body
    (http : trace -> Request -> result Response) (t : trace)
    (r : Response) (v : value) :
  http t QueryBinance.request = Return r ->
  json_body r = Some v ->
  fst (query_binance http t) = Return v.
Proof.
  intros Hr Hbody.
  rewrite (query_binance_answered http t r Hr). cbn.
  unfold body_of. now rewrite Hbody.
Qed.

Lemma query_binance_returns_body_witness :
  fst (query_binance (mocked (reply 200 trades_answer)) []) = Return trades_answer.
Proof.
  apply (query_binance_returns_body (mocked (reply 200 trades_answer)) []
           (reply 200 trades_answer) trades_answer);
    reflexivity.
Defined.

(** ** The requests of one call *)

Lemma requests_of_after_response (rq : Request) (n : Z) :
  requests_of (after_response rq n) = [rq].
Proof. reflexivity. Qed.

Lemma query_graph_requests
    (http : trace -> Request -> result Response) (t : trace) :
  requests_of (snd (query_graph http t)) = requests_of t ++ [QueryGraph.request].
Proof.
  destruct (http t QueryGraph.request) as [r | e] eqn:Hr.
  - rewrite (query_graph_answered http t r Hr). cbn.
    now rewrite requests_of_app, requests_of_after_response.
  - rewrite (query_graph_unanswered http t e Hr). cbn.
    now rewrite requests_of_app.
Qed.

Lemma query_binance_requests
    (http : trace -> Request -> result Response) (t : trace) :
  requests_of (snd (query_binance http t)) = requests_of t ++ [QueryBinance.request].
Proof.
  destruct (http t QueryBinance.request) as [r | e] eqn:Hr.
  - rewrite (query_binance_answered http t r Hr). cbn.
    now rewrite requests_of_app, requests_of_after_response.
  - rewrite (query_binance_unanswered http t e Hr). cbn.
    now rewrite requests_of_app.
Qed.

(** C6: under every HTTP layer, whatever it answers and whatever was done
    before, one call of [query_graph] adds exactly one request to the
    requests made, and so does one call of [query_binance]. *)
Theorem one_request_per_call
    (http : trace -> Request -> result Response) (t : trace) :
  (requests_of (snd (query_graph http t)) = requests_of t ++ [QueryGraph.request] /\
   length (requests_of (snd (query_graph http t))) = S (length (requests_of t))) /\
  (requests_of (snd (query_binance http t)) = requests_of t ++ [QueryBinance.request] /\
   length (requests_of (snd (query_binance http t))) = S (length (requests_of t))).
Proof.
  rewrite query_graph_requests, query_binance_requests.
  rewrite !length_app. cbn. repeat split; lia.
Qed.

(** ** The URL of [query_binance] *)

(** C5: on every call, the request of [query_binance] is a GET of a URL
    whose path is [/api/v3/aggTrades] and whose query string is made of
    [symbol=ETHUSDC], [startTime=1733240400000] and
    [endTime=1733240460000], each of them written as such in the URL. *)
Theorem query_binance_url
    (http : trace -> Request -> result Response) (t : trace) :
  exists rq : Request,
    requests_of (snd (query_binance http t)) = requests_of t ++ [rq] /\
    req_method rq = GET /\
    URL.split (req_url rq) =
      Some {| URL.scheme := "https";
              URL.authority := "api.binance.com";
              URL.path := "/api/v3/aggTrades";
              URL.query :=
                Some "symbol=ETHUSDC&startTime=1733240400000&endTime=1733240460000" |} /\
    URL.parameters "symbol=ETHUSDC&startTime=1733240400000&endTime=1733240460000" =
      [("symbol", "ETHUSDC"); ("startTime", "1733240400000");
       ("endTime", "1733240460000")] /\
    contains "symbol=ETHUSDC" (req_url rq) = true /\
    contains "startTime=1733240400000" (req_url rq) = true /\
    contains "endTime=1733240460000" (req_url rq) = true /\
    contains "/api/v3/aggTrades?" (req_url rq) = true.
Proof.
  exists QueryBinance.request.
  split; [apply query_binance_requests | ].
  repeat split; vm_compute; reflexivity.
Qed.

(** ** Order of the calls *)

(** C10: in [query_graph] and in [query_binance] alike, once a response
    has come back the calls made are, in this order: the request, the
    print of the status code, the decoding of the body.  The status code
    is thus on standard output whatever the decoding and the lookup of
    ["data"] give afterwards, a failure included. *)
Theorem status_printed_before_decoding
    (http : trace -> Request -> result Response) (t : trace) (r : Response) :
  (http t QueryGraph.request = Return r ->
   snd (query_graph http t) =
     t ++ [EvRequest QueryGraph.request; EvPrint (str (status_code r) +:+ LF); EvJson] /\
   stdout_of (snd (query_graph http t)) = stdout_of t ++ [str (status_code r) +:+ LF]) /\
  (http t QueryBinance.request = Return r ->
   snd (query_binance http t) =
     t ++ [EvRequest QueryBinance.request; EvPrint (str (status_code r) +:+ LF); EvJson] /\
   stdout_of (snd (query_binance http t)) = stdout_of t ++ [str (status_code r) +:+ LF]).
Proof.
  split; intros Hr.
  - rewrite (query_graph_answered http t r Hr). cbn.
    split; [reflexivity | now rewrite stdout_of_app].
  - rewrite (query_binance_answered http t r Hr). cbn.
    split; [reflexivity | now rewrite stdout_of_app].
Qed.

Lemma status_printed_before_decoding_witness :
  (fst (query_graph (mocked (garbled 502)) []) = Raise JSONDecodeError /\
   stdout_of (snd (query_graph (mocked (garbled 502)) [])) = ["502" +:+ LF]) /\
  (fst (query_binance (mocked (garbled 502)) []) = Raise JSONDecodeError /\
   stdout_of (snd (query_binance (mocked (garbled 502)) [])) = ["502" +:+ LF]).
Proof.
  destruct (status_printed_before_decoding (mocked (garbled 502)) [] (garbled 502))
    as [Hgraph Hbinance].
  destruct (Hgraph eq_refl) as [_ Hout1].
  destruct (Hbinance eq_refl) as [_ Hout2].
  split; (split; [vm_compute; reflexivity | ]).
  - exact Hout1.
  - exact Hout2.
Defined.

(** ** The GraphQL document *)

(** The document [q], read by the GraphQL grammar: one anonymous query
    with the single field [swaps]. *)
Lemma parse_q :
  GraphQL.parse_document QueryGraph.q =
    Some [ {| GraphQL.op_type := GraphQL.Query;
              GraphQL.op_name := None;
              GraphQL.op_selections :=
                [ GraphQL.Field None "swaps"
                    [ ("where",
                       GraphQL.GObject
                         [ ("pool_in",
                            GraphQL.GList
                              [ GraphQL.GString "0x88e6a0c2ddd26feeb64f039a2c41296fcb3f5640";
                                GraphQL.GString "0x8ad599c3a0ff1de082011efddc58f1908eb6e6d8";
                                GraphQL.GString "0xe0554a476a092703abdb3ef35c80e0d76d32939f";
                                GraphQL.GString "0x7BeA39867e4169DBe237d55C8242a8f2fcDcc387" ]);
                           ("timestamp_gt", GraphQL.GInt 1733080500);
                           ("timestamp_lt", GraphQL.GInt 1733080560) ]);
                      ("orderBy", GraphQL.GEnum "timestamp");
                      ("orderDirection", GraphQL.GEnum "desc") ]
                    [ GraphQL.Field None "amount0" [] [];
                      GraphQL.Field None "amount1" [] [] ] ] |} ].
Proof. vm_compute. reflexivity. Qed.

(** C7: on every call, the request of [query_graph] is a POST to the fixed
    gateway URL, with the header [Content-Type: application/json] and a
    JSON payload made of the single key ["query"]; the value under that
    key is the GraphQL document: read by the GraphQL grammar, it is the
    query for [swaps] with its [where], [orderBy] and [orderDirection]
    arguments and its two sub-fields. *)
Theorem query_graph_posts_document
    (http : trace -> Request -> result Response) (t : trace) :
  exists (rq : Request) (doc : string),
    requests_of (snd (query_graph http t)) = requests_of t ++ [rq] /\
    req_method rq = POST /\
    req_url rq =
      "https://gateway.thegraph.com/api/da162f6f59fe4400bb44cfb2f36d1336/subgraphs/id/5zvR82QoaXYFyDEKLZ9t6v9adgnptxYpKpSbxtgVENFV" /\
    req_headers rq = {[ "Content-Type" := "application/json" ]} /\
    req_json rq = Some (JDict {[ "query" := JStr doc ]}) /\
    GraphQL.parse_document doc =
      Some [ {| GraphQL.op_type := GraphQL.Query;
                GraphQL.op_name := None;
                GraphQL.op_selections :=
                  [ GraphQL.Field None "swaps"
                      [ ("where",
                         GraphQL.GObject
                           [ ("pool_in",
                              GraphQL.GList
                                [ GraphQL.GString "0x88e6a0c2ddd26feeb64f039a2c41296fcb3f5640";
                                  GraphQL.GString "0x8ad599c3a0ff1de082011efddc58f1908eb6e6d8";
                                  GraphQL.GString "0xe0554a476a092703abdb3ef35c80e0d76d32939f";
                                  GraphQL.GString "0x7BeA39867e4169DBe237d55C8242a8f2fcDcc387" ]);
                             ("timestamp_gt", GraphQL.GInt 1733080500);
                             ("timestamp_lt", GraphQL.GInt 1733080560) ]);
                        ("orderBy", GraphQL.GEnum "timestamp");
                        ("orderDirection", GraphQL.GEnum "desc") ]
                      [ GraphQL.Field None "amount0" [] [];
                        GraphQL.Field None "amount1" [] [] ] ] |} ].
Proof.
  exists QueryGraph.request, QueryGraph.q.
  split; [apply query_graph_requests | ].
  split; [reflexivity | ].
  split; [reflexivity | ].
  split; [reflexivity | ].
  split; [reflexivity | apply parse_q].
Qed.

(** C4: on every call, the payload posted by [query_graph] is a JSON
    object with the key ["query"]; its value is a GraphQL document whose
    [pool_in] list has the four pool addresses as four distinct elements
    and whose timestamp bounds are 1733080500 and 1733080560; the document
    holds no other string and no other number. *)
Theorem query_graph_document_pools_and_bounds
    (http : trace -> Request -> result Response) (t : trace) :
  exists (rq : Request) (doc : string) (ops : list GraphQL.operation)
         (order : list (string * GraphQL.gvalue)) (fields : list GraphQL.selection),
    requests_of (snd (query_graph http t)) = requests_of t ++ [rq] /\
    req_json rq = Some (JDict {[ "query" := JStr doc ]}) /\
    GraphQL.parse_document doc = Some ops /\
    ops =
      [ {| GraphQL.op_type := GraphQL.Query;
           GraphQL.op_name := None;
           GraphQL.op_selections :=
             [ GraphQL.Field None "swaps"
                 (("where",
                   GraphQL.GObject
                     [ ("pool_in",
                        GraphQL.GList
                          [ GraphQL.GString "0x88e6a0c2ddd26feeb64f039a2c41296fcb3f5640";
                            GraphQL.GString "0x8ad599c3a0ff1de082011efddc58f1908eb6e6d8";
                            GraphQL.GString "0xe0554a476a092703abdb3ef35c80e0d76d32939f";
                            GraphQL.GString "0x7BeA39867e4169DBe237d55C8242a8f2fcDcc387" ]);
                       ("timestamp_gt", GraphQL.GInt 1733080500);
                       ("timestamp_lt", GraphQL.GInt 1733080560) ]) :: order)
                 fields ] |} ] /\
    GraphQL.document_strings ops =
      [ "0x88e6a0c2ddd26feeb64f039a2c41296fcb3f5640";
        "0x8ad599c3a0ff1de082011efddc58f1908eb6e6d8";
        "0xe0554a476a092703abdb3ef35c80e0d76d32939f";
        "0x7BeA39867e4169DBe237d55C8242a8f2fcDcc387" ] /\
    NoDup (GraphQL.document_strings ops) /\
    GraphQL.document_ints ops = [1733080500; 1733080560].
Proof.
  eexists QueryGraph.request, QueryGraph.q, _, _, _.
  split; [apply query_graph_requests | ].
  split; [reflexivity | ].
  split; [apply parse_q | ].
  split; [reflexivity | ].
  split; [reflexivity | ].
  split; [ | reflexivity].
  apply (bool_decide_unpack _). vm_compute. exact I.
Qed.

Lemma where_of_q_holds (pool : string) (timestamp : Z) :
  Subgraph.where_holds where_of_q (Subgraph.swap pool timestamp) =
    existsb (String.eqb pool)
      [ "0x88e6a0c2ddd26feeb64f039a2c41296fcb3f5640";
        "0x8ad599c3a0ff1de082011efddc58f1908eb6e6d8";
        "0xe0554a476a092703abdb3ef35c80e0d76d32939f";
        "0x7BeA39867e4169DBe237d55C8242a8f2fcDcc387" ]
    && ((timestamp >? 1733080500) && ((timestamp <? 1733080560) && true)).
Proof. reflexivity. Qed.

Lemma where_of_q_window (pool : string) (timestamp : Z) :
  Subgraph.where_holds where_of_q (Subgraph.swap pool timestamp) = true <->
  In pool
    [ "0x88e6a0c2ddd26feeb64f039a2c41296fcb3f5640";
      "0x8ad599c3a0ff1de082011efddc58f1908eb6e6d8";
      "0xe0554a476a092703abdb3ef35c80e0d76d32939f";
      "0x7BeA39867e4169DBe237d55C8242a8f2fcDcc387" ] /\
  1733080500 < timestamp < 1733080560.
Proof.
  rewrite where_of_q_holds.
  rewrite !andb_true_iff, existsb_exists, Z.gtb_lt, Z.ltb_lt.
  split.
  - intros [(x & Hin & Heq) (Hgt & Hlt & _)].
    apply String.eqb_eq in Heq. subst x. auto.
  - intros [Hin [Hgt Hlt]]. split.
    + exists pool. split; [exact Hin | apply String.eqb_refl].
    + auto.
Qed.

(** C8: on every call, the document sent by [query_graph] asks, for the
    [swaps] field, for exactly the two fields [amount0] and [amount1];
    its [where] filter lets a swap through exactly when its pool is one of
    the listed ones and its timestamp is strictly above 1733080500 and
    strictly below 1733080560, so neither bound passes; the results are
    ordered by [timestamp], direction [desc]. *)
Theorem query_graph_document_shape
    (http : trace -> Request -> result Response) (t : trace) :
  exists (rq : Request) (doc : string)
         (args : list (string * GraphQL.gvalue)) (w pools : GraphQL.gvalue),
    requests_of (snd (query_graph http t)) = requests_of t ++ [rq] /\
    req_json rq = Some (JDict {[ "query" := JStr doc ]}) /\
    GraphQL.parse_document doc =
      Some [ {| GraphQL.op_type := GraphQL.Query;
                GraphQL.op_name := None;
                GraphQL.op_selections :=
                  [ GraphQL.Field None "swaps" args
                      [ GraphQL.Field None "amount0" [] [];
                        GraphQL.Field None "amount1" [] [] ] ] |} ] /\
    args = [ ("where", w);
             ("orderBy", GraphQL.GEnum "timestamp");
             ("orderDirection", GraphQL.GEnum "desc") ] /\
    w = GraphQL.GObject
          [ ("pool_in", pools);
            ("timestamp_gt", GraphQL.GInt 1733080500);
            ("timestamp_lt", GraphQL.GInt 1733080560) ] /\
    (forall (pool : string) (timestamp : Z),
       Subgraph.where_holds w (Subgraph.swap pool timestamp) = true <->
       In pool
         [ "0x88e6a0c2ddd26feeb64f039a2c41296fcb3f5640";
           "0x8ad599c3a0ff1de082011efddc58f1908eb6e6d8";
           "0xe0554a476a092703abdb3ef35c80e0d76d32939f";
           "0x7BeA39867e4169DBe237d55C8242a8f2fcDcc387" ] /\
       1733080500 < timestamp < 1733080560) /\
    (forall pool : string,
       Subgraph.where_holds w (Subgraph.swap pool 1733080500) = false /\
       Subgraph.where_holds w (Subgraph.swap pool 1733080560) = false).
Proof.
  eexists QueryGraph.request, QueryGraph.q, _, where_of_q, _.
  split; [apply query_graph_requests | ].
  split; [reflexivity | ].
  split; [apply parse_q | ].
  split; [reflexivity | ].
  split; [reflexivity | ].
  split.
  - apply where_of_q_window.
  - intros pool. rewrite !where_of_q_holds.
    split; destruct (existsb _ _); reflexivity.
Qed.

(** ** Runs on sample layers *)

Example query_graph_unreachable :
  query_graph unreachable [] =
    (Raise (RequestException "ConnectionError"), [EvRequest QueryGraph.request]).
Proof. reflexivity. Qed.

Example query_graph_list_body :
  fst (query_graph (mocked (reply 200 errors_answer)) []) = Raise (TypeError "list").
Proof. reflexivity. Qed.

Example query_graph_garbled_body :
  query_graph (mocked (garbled 502)) [] =
    (Raise JSONDecodeError,
     [EvRequest QueryGraph.request; EvPrint ("502" +:+ LF); EvJson]).
Proof. reflexivity. Qed.

Example query_binance_error_status :
  query_binance (mocked (reply 429 (JDict {[ "code" := JInt (-1003) ]}))) [] =
    (Return (JDict {[ "code" := JInt (-1003) ]}),
     [EvRequest QueryBinance.request; EvPrint ("429" +:+ LF); EvJson]).
Proof. reflexivity. Qed.

(** Commas are ignored by the grammar: the list of [q], whose last two
    strings are separated by a line break only, reads as the same list
    written with commas throughout. *)
Example list_without_comma :
  (GraphQL.tokens ("[" +:+ quoted "a" +:+ LF +:+ " " +:+ quoted "b" +:+ "]") ≫=
     GraphQL.parse_value 8) =
  (GraphQL.tokens ("[" +:+ quoted "a" +:+ "," +:+ quoted "b" +:+ "]") ≫=
     GraphQL.parse_value 8).
Proof. reflexivity. Qed.

(** * Further properties of the two functions *)

(** ** When a call returns, and what *)

(** X1: [query_graph] returns a value [v] exactly when the layer answered,
    the body decoded to a mapping, and [v] is what that mapping holds
    under ["data"]; no other value is ever returned. *)
Theorem query_graph_returns_iff
    (http : trace -> Request -> result Response) (t : trace) (v : value) :
  fst (query_graph http t) = Return v <->
  exists (r : Response) (d : gmap string value),
    http t QueryGraph.request = Return r /\
    json_body r = Some (JDict d) /\
    d !! "data" = Some v.
Proof.
  destruct (http t QueryGraph.request) as [r | e] eqn:Hr.
  - rewrite (query_graph_answered http t r Hr). cbn. unfold data_of.
    split.
    + intros H. exists r.
      destruct (json_body r) as [b | ]; [ | discriminate].
      destruct b as [ | ? | ? | ? | ? | ? | d]; try discriminate.
      exists d. cbn in H.
      destruct (d !! "data") as [x | ]; [ | discriminate].
      injection H as ->. auto.
    + intros (r' & d & Hr' & Hbody & Hdata).
      injection Hr' as <-. rewrite Hbody. cbn. now rewrite Hdata.
  - rewrite (query_graph_unanswered http t e Hr). cbn.
    split; [discriminate | ].
    intros (r' & d & Hr' & _). discriminate.
Qed.

(** X2: [query_binance] returns a value [v] exactly when the layer
    answered and [v] is the decoded body. *)
Theorem query_binance_returns_iff
    (http : trace -> Request -> result Response) (t : trace) (v : value) :
  fst (query_binance http t) = Return v <->
  exists r : Response,
    http t QueryBinance.request = Return r /\ json_body r = Some v.
Proof.
  destruct (http t QueryBinance.request) as [r | e] eqn:Hr.
  - rewrite (query_binance_answered http t r Hr). cbn. unfold body_of.
    split.
    + intros H. exists r.
      destruct (json_body r) as [b | ]; [ | discriminate].
      injection H as ->. auto.
    + intros (r' & Hr' & Hbody).
      injection Hr' as <-. now rewrite Hbody.
  - rewrite (query_binance_unanswered http t e Hr). cbn.
    split; [discriminate | ].
    intros (r' & Hr' & _). discriminate.
Qed.

(** ** How a call fails *)

(** X4: a body that is not JSON makes [query_binance] raise the decoding
    error: the call of [json()] is not guarded, so nothing is returned in
    place of the body; the status code is on standard output by then. *)
Theorem query_binance_raises_on_garbled_body
    (http : trace -> Request -> result Response) (t : trace) (r : Response) :
  http t QueryBinance.request = Return r ->
  json_body r = None ->
  fst (query_binance http t) = Raise JSONDecodeError /\
  stdout_of (snd (query_binance http t)) = stdout_of t ++ [str (status_code r) +:+ LF].
Proof.
  intros Hr Hbody.
  rewrite (query_binance_answered http t r Hr). cbn.
  unfold body_of. rewrite Hbody.
  split; [reflexivity | now rewrite stdout_of_app].
Qed.

Lemma query_binance_raises_on_garbled_body_witness :
  fst (query_binance (mocked (garbled 503)) []) = Raise JSONDecodeError /\
  stdout_of (snd (query_binance (mocked (garbled 503)) [])) = ["503" +:+ LF].
Proof.
  apply (query_binance_raises_on_garbled_body (mocked (garbled 503)) []
           (garbled 503));
    reflexivity.
Defined.

(** X5: when the client raises on the request of [query_graph], the
    exception leaves the function as it is; the request is the only call
    made: nothing is printed and [json()] is not called. *)
Theorem query_graph_client_error
    (http : trace -> Request -> result Response) (t : trace) (e : exn) :
  http t QueryGraph.request = Raise e ->
  fst (query_graph http t) = Raise e /\
  snd (query_graph http t) = t ++ [EvRequest QueryGraph.request] /\
  stdout_of (snd (query_graph http t)) = stdout_of t.
Proof.
  intros He. rewrite (query_graph_unanswered http t e He). cbn.
  repeat split. rewrite stdout_of_app. cbn. apply app_nil_r.
Qed.

Lemma query_graph_client_error_witness :
  fst (query_graph unreachable []) = Raise (RequestException "ConnectionError") /\
  snd (query_graph unreachable []) = [EvRequest QueryGraph.request] /\
  stdout_of (snd (query_graph unreachable [])) = [].
Proof.
  apply (query_graph_client_error unreachable []
           (RequestException "ConnectionError")).
  reflexivity.
Defined.

(** X6: when the client raises on the request of [query_binance], the
    exception leaves the function as it is; the request is the only call
    made: nothing is printed and [json()] is not called. *)
Theorem query_binance_client_error
    (http : trace -> Request -> result Response) (t : trace) (e : exn) :
  http t QueryBinance.request = Raise e ->
  fst (query_binance http t) = Raise e /\
  snd (query_binance http t) = t ++ [EvRequest QueryBinance.request] /\
  stdout_of (snd (query_binance http t)) = stdout_of t.
Proof.
  intros He. rewrite (query_binance_unanswered http t e He). cbn.
  repeat split. rewrite stdout_of_app. cbn. apply app_nil_r.
Qed.

Lemma query_binance_client_error_witness :
  fst (query_binance unreachable []) = Raise (RequestException "ConnectionError") /\
  snd (query_binance unreachable []) = [EvRequest QueryBinance.request] /\
  stdout_of (snd (query_binance unreachable [])) = [].
Proof.
  apply (query_binance_client_error unreachable []
           (RequestException "ConnectionError")).
  reflexivity.
Defined.

(** ** The status code decides nothing *)

(** X7: the status code is printed and not looked at again: two answers
    to [query_graph] with the same body give the same outcome, value or
    exception, whatever their status codes. *)
Theorem query_graph_ignores_status
    (http1 http2 : trace -> Request -> result Response) (t1 t2 : trace)
    (r1 r2 : Response) :
  http1 t1 QueryGraph.request = Return r1 ->
  http2 t2 QueryGraph.request = Return r2 ->
  json_body r1 = json_body r2 ->
  fst (query_graph http1 t1) = fst (query_graph http2 t2).
Proof.
  intros H1 H2 Hbody.
  rewrite (query_graph_answered http1 t1 r1 H1).
  rewrite (query_graph_answered http2 t2 r2 H2). cbn.
  unfold data_of. now rewrite Hbody.
Qed.

Lemma query_graph_ignores_status_witness :
  fst (query_graph (mocked (reply 200 (JDict {[ "data" := swaps_answer ]}))) []) =
  fst (query_graph (mocked (reply 500 (JDict {[ "data" := swaps_answer ]}))) []).
Proof.
  apply (query_graph_ignores_status
           (mocked (reply 200 (JDict {[ "data" := swaps_answer ]})))
           (mocked (reply 500 (JDict {[ "data" := swaps_answer ]}))) [] []
           (reply 200 (JDict {[ "data" := swaps_answer ]}))
           (reply 500 (JDict {[ "data" := swaps_answer ]})));
    reflexivity.
Defined.

(** X8: likewise in [query_binance]: two answers with the same body give
    the same outcome whatever their status codes, so the body of an error
    answer is returned like any other. *)
Theorem query_binance_ignores_status
    (http1 http2 : trace -> Request -> result Response) (t1 t2 : trace)
    (r1 r2 : Response) :
  http1 t1 QueryBinance.request = Return r1 ->
  http2 t2 QueryBinance.request = Return r2 ->
  json_body r1 = json_body r2 ->
  fst (query_binance http1 t1) = fst (query_binance http2 t2).
Proof.
  intros H1 H2 Hbody.
  rewrite (query_binance_answered http1 t1 r1 H1).
  rewrite (query_binance_answered http2 t2 r2 H2). cbn.
  unfold body_of. now rewrite Hbody.
Qed.

Lemma query_binance_ignores_status_witness :
  fst (query_binance (mocked (reply 200 trades_answer)) []) =
  fst (query_binance (mocked (reply 429 trades_answer)) []).
Proof.
  apply (query_binance_ignores_status
           (mocked (reply 200 trades_answer)) (mocked (reply 429 trades_answer))
           [] [] (reply 200 trades_answer) (reply 429 trades_answer));
    reflexivity.
Defined.
